(** * Health dashboard (app.py): inference-and-record pipeline

    Shallow embedding of the Streamlit script [app.py]: the conversion of the
    sidebar inputs into the 13-feature vector, the prediction step, the
    read-concat-write persistence of [data/patient_records.csv] and the
    analytics section that reads it back.

    Modelling choices:
    - numbers held in the numpy array are float64; every value the script
      puts there (slider integers, the [oldpeak] slider, the parsed codes)
      is a small rational that float64 holds exactly, so they are [Q];
    - a pandas DataFrame is a header plus rows of cells;
    - the CSV file is the table it holds ([to_csv] followed by [read_csv]
      is taken to give the same table back);
    - a Python [str] is held as its UTF-8 bytes and decoded to code points
      where the code indexes or splits it;
    - the scaler and the classifier are opaque functions (Section variables);
    - a Python exception raised while the script runs is [None]. *)

From Stdlib Require Import ZArith QArith String Ascii List Bool Lia.
Import ListNotations.
Open Scope string_scope.
Open Scope list_scope.

(** ** Python strings

    A Python [str] is a sequence of code points.  The script's strings are
    held here as their UTF-8 bytes ([string]); where the code works on
    characters they are decoded to code points ([list Z]). *)

Open Scope Z_scope.

Definition byte_val (b : ascii) : Z := Z.of_N (N_of_ascii b).

(** The six payload bits of a continuation byte [10xxxxxx]. *)
Definition cont_bits (b : ascii) : option Z :=
  let n := byte_val b in
  if (128 <=? n) && (n <=? 191) then Some (n - 128)%Z else None.

(** UTF-8 decoding, strict (no overlong forms, no surrogates, nothing above
    U+10FFFF); [None] only for a byte string that is no Python [str]. *)
Fixpoint utf8_decode (s : string) : option (list Z) :=
  match s with
  | EmptyString => Some []
  | String b0 r0 =>
      let n0 := byte_val b0 in
      if n0 <? 128 then option_map (cons n0) (utf8_decode r0)
      else if (194 <=? n0) && (n0 <=? 223) then
        match r0 with
        | String b1 r1 =>
            match cont_bits b1 with
            | Some x1 => option_map (cons ((n0 - 192) * 64 + x1)%Z) (utf8_decode r1)
            | None => None
            end
        | EmptyString => None
        end
      else if (224 <=? n0) && (n0 <=? 239) then
        match r0 with
        | String b1 (String b2 r2) =>
            match cont_bits b1, cont_bits b2 with
            | Some x1, Some x2 =>
                let c := ((n0 - 224) * 4096 + x1 * 64 + x2)%Z in
                if (2048 <=? c) && negb ((55296 <=? c) && (c <=? 57343))
                then option_map (cons c) (utf8_decode r2) else None
            | _, _ => None
            end
        | _ => None
        end
      else if (240 <=? n0) && (n0 <=? 244) then
        match r0 with
        | String b1 (String b2 (String b3 r3)) =>
            match cont_bits b1, cont_bits b2, cont_bits b3 with
            | Some x1, Some x2, Some x3 =>
                let c := ((n0 - 240) * 262144 + x1 * 4096 + x2 * 64 + x3)%Z in
                if (65536 <=? c) && (c <=? 1114111)
                then option_map (cons c) (utf8_decode r3) else None
            | _, _, _ => None
            end
        | _ => None
        end
      else None
  end.

(** [s.split(sep)] for a one-character separator, on code points: always
    at least one piece. *)
Fixpoint py_split (sep : Z) (s : list Z) : list (list Z) :=
  match s with
  | [] => [[]]
  | c :: rest =>
      let pieces := py_split sep rest in
      if Z.eqb c sep then [] :: pieces
      else match pieces with
           | p :: ps => (c :: p) :: ps
           | [] => [[c]]
           end
  end.

(** The code point of "(". *)
Definition lparen : Z := 40.

(** First code points of the runs of ten Unicode decimal digits (general
    category Nd, digit values 0 to 9 in order), as in the Unicode 14.0
    database of Python 3.11's [unicodedata]. *)
Definition decimal_zeros : list Z :=
  [48; 1632; 1776; 1984; 2406; 2534; 2662; 2790; 2918; 3046; 3174; 3302; 3430;
   3558; 3664; 3792; 3872; 4160; 4240; 6112; 6160; 6470; 6608; 6784; 6800;
   6992; 7088; 7232; 7248; 42528; 43216; 43264; 43472; 43504; 43600; 44016;
   65296; 66720; 68912; 69734; 69872; 69942; 70096; 70384; 70736; 70864;
   71248; 71360; 71472; 71904; 72016; 72784; 73040; 73120; 92768; 92864;
   93008; 120782; 120792; 120802; 120812; 120822; 123200; 123632; 125264;
   130032].

(** [int(c)] for a one-character string: the value of a Unicode decimal
    digit ("4" and the Arabic-Indic "٣" alike), [ValueError] (here
    [None]) for any other character. *)
Definition py_int_of_char (c : Z) : option Z :=
  match find (fun z => (z <=? c) && (c <=? z + 9)) decimal_zeros with
  | Some z => Some (c - z)%Z
  | None => None
  end.

(** [int(s.split("(")[1][0])], lines 66-69: [IndexError] when there is
    no "(" or nothing follows it, [ValueError] when the character after it
    is no decimal digit. *)
Definition parse_code (s : string) : option Z :=
  match utf8_decode s with
  | None => None
  | Some cps =>
      match nth_error (py_split lparen cps) 1 with
      | Some (c :: _) => py_int_of_char c
      | _ => None
      end
  end.

Close Scope Z_scope.

(** ** Sidebar inputs (lines 45-58) *)

Record raw_input := mk_raw {
  age : Z;          (* slider 18..100 *)
  sex : string;     (* "Female" | "Male" *)
  cp : string;      (* "Typical Angina (1)" ... "Asymptomatic (4)" *)
  trestbps : Z;     (* slider 80..200 *)
  chol : Z;         (* slider 100..600 *)
  fbs : string;     (* "False" | "True" *)
  restecg : string; (* "Normal (0)" ... *)
  thalach : Z;      (* slider 60..220 *)
  exang : string;   (* "No" | "Yes" *)
  oldpeak : Q;      (* slider 0.0..6.0 *)
  slope : string;   (* "Upsloping (1)" ... *)
  ca : Z;           (* slider 0..3 *)
  thal : string     (* "Normal (3)" ... *)
}.

Definition sex_choices : list string := ["Female"; "Male"].
Definition cp_choices : list string :=
  ["Typical Angina (1)"; "Atypical Angina (2)"; "Non-anginal (3)"; "Asymptomatic (4)"].
Definition fbs_choices : list string := ["False"; "True"].
Definition restecg_choices : list string :=
  ["Normal (0)"; "ST-T Abnormality (1)"; "Left Ventricular Hypertrophy (2)"].
Definition exang_choices : list string := ["No"; "Yes"].
Definition slope_choices : list string :=
  ["Upsloping (1)"; "Flat (2)"; "Downsloping (3)"].
Definition thal_choices : list string :=
  ["Normal (3)"; "Fixed Defect (6)"; "Reversible Defect (7)"].

(** ** Conversion to numeric (lines 63-72) *)

Definition Qz (z : Z) : Q := inject_Z z.

(** [sex = 1 if sex == "Male" else 0] and likewise for [fbs], [exang]. *)
Definition flag (s expected : string) : Z := if String.eqb s expected then 1%Z else 0%Z.

(** [input_data = np.array([[age, sex, cp, ..., thal]])], a float row. *)
Definition input_data (r : raw_input) : option (list Q) :=
  let sex' := flag (sex r) "Male" in
  let fbs' := flag (fbs r) "True" in
  let exang' := flag (exang r) "Yes" in
  match parse_code (cp r), parse_code (restecg r),
        parse_code (slope r), parse_code (thal r) with
  | Some cp', Some restecg', Some slope', Some thal' =>
      Some [Qz (age r); Qz sex'; Qz cp'; Qz (trestbps r); Qz (chol r); Qz fbs';
            Qz restecg'; Qz (thalach r); Qz exang'; oldpeak r; Qz slope';
            Qz (ca r); Qz thal']
  | _, _, _, _ => None
  end.

(** Column names of [input_df] (lines 77-80). *)
Definition feature_columns : list string :=
  ["age"; "sex"; "cp"; "trestbps"; "chol"; "fbs"; "restecg";
   "thalach"; "exang"; "oldpeak"; "slope"; "ca"; "thal"].


(** ** DataFrames and the CSV store *)

(** A DataFrame cell: a number, a string, or the [NaN] pandas fills in. *)
Inductive cell := CNum (q : Q) | CStr (s : string) | CNaN.

(** pandas compares numbers by value ([1] and [1.0] are one key). *)
Definition cell_eqb (a b : cell) : bool :=
  match a, b with
  | CNum x, CNum y => Qeq_bool x y
  | CStr x, CStr y => String.eqb x y
  | _, _ => false
  end.

Record table := mk_table { columns : list string; rows : list (list cell) }.

(** [row[c]] for the first column named [c]; [NaN] when there is none
    (what a reindex fills in). *)
Fixpoint cell_at (cols : list string) (row : list cell) (c : string) : cell :=
  match cols, row with
  | c' :: cols', x :: row' => if String.eqb c c' then x else cell_at cols' row' c
  | _, _ => CNaN
  end.

Definition reindex (old new : list string) (row : list cell) : list cell :=
  map (cell_at old row) new.

Fixpoint str_mem (c : string) (l : list string) : bool :=
  match l with [] => false | c' :: l' => String.eqb c c' || str_mem c l' end.

Fixpoint str_list_eqb (a b : list string) : bool :=
  match a, b with
  | [], [] => true
  | x :: a', y :: b' => String.eqb x y && str_list_eqb a' b'
  | _, _ => false
  end.

(** [pd.concat([a, b], ignore_index=True)]: equal column indexes are kept
    as they are; otherwise the columns are the union ([a]'s order, then the
    new ones of [b]) and every row is reindexed, missing cells becoming NaN. *)
Definition concat (a b : table) : table :=
  if str_list_eqb (columns a) (columns b) then
    mk_table (columns a) (rows a ++ rows b)
  else
    let cols := columns a ++ filter (fun c => negb (str_mem c (columns a))) (columns b) in
    mk_table cols (map (reindex (columns a) cols) (rows a) ++
                   map (reindex (columns b) cols) (rows b)).

(** A row seen as a record: field name to value. *)
Definition as_record (cols : list string) (row : list cell) : list (string * cell) :=
  combine cols row.

(** The rows of the CSV as records, in file order; an absent file has none
    (the [os.path.exists(csv_path)] tests at lines 121 and 141). *)
Definition read_all (csv : option table) : list (list (string * cell)) :=
  match csv with
  | Some t => map (as_record (columns t)) (rows t)
  | None => []
  end.

(** The file system as the script sees it: the [data] directory and
    [data/patient_records.csv]. *)
Record fs := mk_fs { data_dir : bool; records_csv : option table }.

(** ** Prediction and logging (lines 102-131) *)

Definition risk_level (p : Z) : string := if Z.eqb p 1 then "High" else "Low".

Definition risk_message (p : Z) : string :=
  if Z.eqb p 1 then "⚠️ High Risk of Heart Disease"
  else "✅ Low Risk - Stable Condition".

(** [st.error(risk)] or [st.success(risk)], lines 107-110. *)
Inductive banner := StError (msg : string) | StSuccess (msg : string).

Definition result_banner (p : Z) : banner :=
  if Z.eqb p 1 then StError (risk_message p) else StSuccess (risk_message p).

Definition record_columns : list string := feature_columns ++ ["prediction"; "risk_level"].

(** [input_df] after lines 118-119: the raw (unscaled) row of [input_data]
    with the [prediction] and [risk_level] columns added. *)
Definition record_df (v : list Q) (p : Z) : table :=
  mk_table record_columns [map CNum v ++ [CNum (Qz p); CStr (risk_level p)]].

(** Lines 121-125: concat onto the existing file, or the new frame alone. *)
Definition updated_data (csv : option table) (df : table) : table :=
  match csv with
  | Some existing => concat existing df
  | None => df
  end.

(** Lines 115-116 and 127: [os.makedirs("data")], then [to_csv]. *)
Definition append_csv (s : fs) (df : table) : fs :=
  mk_fs true (Some (updated_data (records_csv s) df)).

Record outcome := mk_outcome {
  shown_banner : banner;      (* st.error / st.success *)
  shown_summary : table       (* st.dataframe(input_df) *)
}.

Section Pipeline.

(** The fitted scaler ([scaler.transform]) and the classifier
    ([model.predict(...)[0]]), loaded once at start-up. *)
Variable transform : list Q -> list Q.
Variable predict : list Q -> Z.

(** One run of the script with the predict button pressed. *)
Definition predict_button (r : raw_input) (s : fs) : option (outcome * fs) :=
  match input_data r with
  | None => None
  | Some v =>
      let scaled := transform v in
      let p := predict scaled in
      let df := record_df v p in
      Some (mk_outcome (result_banner p) df, append_csv s df)
  end.

End Pipeline.

(** ** Visual analytics (lines 139-165) *)

(** [df[name]]: [KeyError] (here [None]) when there is no such column. *)
Definition column (t : table) (name : string) : option (list cell) :=
  if str_mem name (columns t)
  then Some (map (fun row => cell_at (columns t) row name) (rows t))
  else None.

Definition is_nan (c : cell) : bool := match c with CNaN => true | _ => false end.

Fixpoint vc_add (x : cell) (acc : list (cell * nat)) : list (cell * nat) :=
  match acc with
  | [] => [(x, 1%nat)]
  | (y, n) :: acc' => if cell_eqb x y then (y, S n) :: acc' else (y, n) :: vc_add x acc'
  end.

(** [Series.value_counts()]: each distinct non-NaN value with the number of
    its occurrences; only values that occur are listed.  The order of the
    result (pandas sorts it by count) is not modelled: only the mapping is. *)
Definition value_counts (cs : list cell) : list (cell * nat) :=
  fold_left (fun acc c => if is_nan c then acc else vc_add c acc) cs [].

(** Looking a key up in a [value_counts] result. *)
Fixpoint count_of (vc : list (cell * nat)) (x : cell) : option nat :=
  match vc with
  | [] => None
  | (y, n) :: vc' => if cell_eqb x y then Some n else count_of vc' x
  end.

Definition zip3 {A B C} (a : list A) (b : list B) (c : list C) : list (A * B * C) :=
  map (fun '(x, (y, z)) => (x, y, z)) (combine a (combine b c)).

Inductive analytics :=
  | NoRecordsInfo                                  (* st.info(...), line 165 *)
  | Charts (hr_vs_age : list (cell * cell * cell))  (* scatter(age, thalach, c=prediction) *)
           (chol_vs_bp : list (cell * cell * cell)) (* scatter(chol, trestbps, c=prediction) *)
           (risk_counts : list (cell * nat)).       (* bar_chart(value_counts()) *)

(** The analytics section: [None] when a column lookup raises [KeyError]. *)
Definition visual_analytics (csv : option table) : option analytics :=
  match csv with
  | None => Some NoRecordsInfo
  | Some df =>
      match column df "age", column df "thalach", column df "prediction",
            column df "chol", column df "trestbps", column df "risk_level" with
      | Some a, Some h, Some p, Some c, Some b, Some rl =>
          Some (Charts (zip3 a h p) (zip3 c b p) (value_counts rl))
      | _, _, _, _, _, _ => None
      end
  end.

(** ** Concurrent sessions

    Each Streamlit session runs the append of lines 121-127 as two separate
    file operations: [pd.read_csv] (or the existence test) and [to_csv].
    No lock orders them, so the steps of different sessions interleave. *)








(** ** Reference tables of the encoding, as the specification lists them *)

Definition sex_table : list (string * Z) := [("Female", 0%Z); ("Male", 1%Z)].
Definition fbs_table : list (string * Z) := [("False", 0%Z); ("True", 1%Z)].
Definition exang_table : list (string * Z) := [("No", 0%Z); ("Yes", 1%Z)].
Definition cp_table : list (string * Z) :=
  [("Typical Angina (1)", 1%Z); ("Atypical Angina (2)", 2%Z);
   ("Non-anginal (3)", 3%Z); ("Asymptomatic (4)", 4%Z)].
Definition restecg_table : list (string * Z) :=
  [("Normal (0)", 0%Z); ("ST-T Abnormality (1)", 1%Z);
   ("Left Ventricular Hypertrophy (2)", 2%Z)].
Definition slope_table : list (string * Z) :=
  [("Upsloping (1)", 1%Z); ("Flat (2)", 2%Z); ("Downsloping (3)", 3%Z)].
Definition thal_table : list (string * Z) :=
  [("Normal (3)", 3%Z); ("Fixed Defect (6)", 6%Z); ("Reversible Defect (7)", 7%Z)].

Fixpoint lookup_str (tbl : list (string * Z)) (s : string) : option Z :=
  match tbl with
  | [] => None
  | (k, z) :: tbl' => if String.eqb s k then Some z else lookup_str tbl' s
  end.

(** The value the encoder puts under a given column name. *)
Definition field_value (r : raw_input) (c : string) : option Q :=
  if String.eqb c "age" then Some (Qz (age r))
  else if String.eqb c "sex" then Some (Qz (flag (sex r) "Male"))
  else if String.eqb c "cp" then option_map Qz (parse_code (cp r))
  else if String.eqb c "trestbps" then Some (Qz (trestbps r))
  else if String.eqb c "chol" then Some (Qz (chol r))
  else if String.eqb c "fbs" then Some (Qz (flag (fbs r) "True"))
  else if String.eqb c "restecg" then option_map Qz (parse_code (restecg r))
  else if String.eqb c "thalach" then Some (Qz (thalach r))
  else if String.eqb c "exang" then Some (Qz (flag (exang r) "Yes"))
  else if String.eqb c "oldpeak" then Some (oldpeak r)
  else if String.eqb c "slope" then option_map Qz (parse_code (slope r))
  else if String.eqb c "ca" then Some (Qz (ca r))
  else if String.eqb c "thal" then option_map Qz (parse_code (thal r))
  else None.

(** The sidebar defaults (lines 45-58) and two variants. *)
Definition default_input : raw_input :=
  mk_raw 45 "Male" "Asymptomatic (4)" 120 200 "False" "Normal (0)" 150 "No"
         (1 # 1) "Flat (2)" 0 "Normal (3)".


(** The rows the predict button writes, one per (vector, label) pair. *)
Definition app_row (e : list Q * Z) : list cell :=
  map CNum (fst e) ++ [CNum (Qz (snd e)); CStr (risk_level (snd e))].

Definition app_store (entries : list (list Q * Z)) : table :=
  mk_table record_columns (map app_row entries).

(** A count as [value_counts] reports it: absent when zero. *)
Definition nz (n : nat) : option nat := match n with O => None | S _ => Some n end.

Definition default_vector : list Q :=
  [Qz 45; Qz 1; Qz 4; Qz 120; Qz 200; Qz 0; Qz 0; Qz 150; Qz 0; 1 # 1; Qz 2; Qz 0; Qz 3].

(** A second app-made feature vector. *)
Definition second_vector : list Q :=
  [Qz 62; Qz 0; Qz 2; Qz 140; Qz 268; Qz 0; Qz 2; Qz 160; Qz 0; 18 # 5; Qz 3; Qz 2; Qz 7].


(** A records file whose header lacks most of the app's columns. *)
Definition legacy_store : table :=
  mk_table ["age"; "thalach"] [[CNum (Qz 50); CNum (Qz 140)]].

(** A records file holding one app row, with its columns in reverse order. *)
Definition reversed_store : table :=
  mk_table (rev record_columns) [rev (app_row (default_vector, 0%Z))].

(** Helpers for reasoning about [value_counts]. *)
Definition bump (o : option nat) : option nat :=
  match o with Some n => Some (S n) | None => Some 1%nat end.

Definition add_count (o : option nat) (k : nat) : option nat :=
  match o with Some n => Some (n + k)%nat | None => nz k end.

(** ** One run of the script (lines 22-165) *)

(** What a run of the script renders. *)
Inductive page :=
  | StartupStopped (msg : string)
      (* st.error(...) then st.stop(), lines 25-27 *)
  | InputCrash
      (* exception of int(...) at lines 66-69 *)
  | Rendered (prediction : option outcome) (charts : option analytics).
      (* prediction block when the button was pressed (lines 102-131), then
         the analytics section (lines 136-165); [None] charts: KeyError there *)

Definition missing_artifacts_msg : string :=
  "❌ Model or Scaler file not found! Please place your .pkl files in /models folder.".

(** One run: the artifact check, the conversion (run on every rerun, pressed
    button or not), the prediction and logging when [button] is pressed,
    and the charts over the file as it is after that. *)
Definition script_run (transform : list Q -> list Q) (predict : list Q -> Z)
    (model_exists scaler_exists button : bool) (r : raw_input) (s : fs) : page * fs :=
  if negb model_exists || negb scaler_exists then (StartupStopped missing_artifacts_msg, s)
  else
    match input_data r with
    | None => (InputCrash, s)
    | Some _ =>
        if button then
          match predict_button transform predict r s with
          | Some (o, s') => (Rendered (Some o) (visual_analytics (records_csv s')), s')
          | None => (InputCrash, s)
          end
        else (Rendered None (visual_analytics (records_csv s)), s)
    end.

(** Number of non-NaN cells: what [value_counts] counts. *)
Definition non_nan_count (cs : list cell) : nat := length (filter (fun c => negb (is_nan c)) cs).

Definition total_counts (vc : list (cell * nat)) : nat := fold_right (fun e n => snd e + n)%nat 0%nat vc.

(** A string with no "(" in it. *)
Definition no_paren (s : string) : bool :=
  forallb (fun c => negb (Ascii.eqb c "(")) (list_ascii_of_string s).

(** ** Lemmas *)

Example parse_cp4 : parse_code "Asymptomatic (4)" = Some 4%Z.
Proof. reflexivity. Qed.
Example parse_nocode : parse_code "Asymptomatic" = None.
Proof. reflexivity. Qed.
Example parse_arabic_indic : parse_code "Flat (٢)" = Some 2%Z.
Proof. reflexivity. Qed.

(** ** String lemmas *)

Lemma py_split_prefix (pre rest : list Z) :
  ~ In lparen pre -> py_split lparen (pre ++ lparen :: rest) = pre :: py_split lparen rest.
Proof.
  induction pre as [|c pre IH]; intros H; cbn [app py_split].
  - rewrite Z.eqb_refl. reflexivity.
  - rewrite IH by (intros Hin; apply H; right; exact Hin).
    destruct (Z.eqb_spec c lparen) as [Hc|_]; [exfalso; apply H; left; exact Hc | reflexivity].
Qed.

Lemma py_split_no_sep (cps : list Z) :
  ~ In lparen cps -> py_split lparen cps = [cps].
Proof.
  induction cps as [|c cps IH]; intros H; [reflexivity|]. cbn [py_split].
  rewrite IH by (intros Hin; apply H; right; exact Hin).
  destruct (Z.eqb_spec c lparen) as [Hc|_]; [exfalso; apply H; left; exact Hc | reflexivity].
Qed.


(** No "(", or nothing after the first one: [IndexError]. *)
Lemma parse_code_no_code (s : string) (cps : list Z) :
  utf8_decode s = Some cps ->
  ~ In lparen cps \/ (exists pre, cps = pre ++ [lparen] /\ ~ In lparen pre) ->
  parse_code s = None.
Proof.
  intros Hd [Hn|(pre & -> & Hpre)]; unfold parse_code; rewrite Hd.
  - rewrite (py_split_no_sep cps Hn). reflexivity.
  - rewrite (py_split_prefix pre [] Hpre). reflexivity.
Qed.

Lemma byte_val_paren (b : ascii) : byte_val b = lparen -> b = "("%char.
Proof.
  unfold byte_val, lparen. intros H.
  assert (Hn : N_of_ascii b = 40%N) by lia.
  rewrite <- (ascii_N_embedding b), Hn. reflexivity.
Qed.

Lemma cont_bits_range (b : ascii) (x : Z) : cont_bits b = Some x -> (0 <= x <= 63)%Z.
Proof.
  unfold cont_bits. destruct ((128 <=? byte_val b)%Z && (byte_val b <=? 191)%Z) eqn:H; [|discriminate].
  intros E. injection E as <-. apply andb_prop in H as [H1 H2]. apply Z.leb_le in H1, H2. lia.
Qed.

Lemma no_paren_cons (b : ascii) (s : string) :
  no_paren (String b s) = negb (Ascii.eqb b "(") && no_paren s.
Proof. reflexivity. Qed.

(** A "(" code point comes from a "(" byte: a multi-byte form encodes a
    code point of at least 128. *)
Lemma utf8_decode_no_paren : forall n s cps, (String.length s <= n)%nat ->
  utf8_decode s = Some cps -> no_paren s = true -> ~ In lparen cps.
Proof.
  induction n as [|n IH]; intros s cps Hlen Hd Hp.
  - destruct s; [|cbn in Hlen; lia]. injection Hd as <-. intros [].
  - destruct s as [|b0 r0]; [injection Hd as <-; intros []|].
    rewrite no_paren_cons in Hp. apply andb_prop in Hp as [Hb0 Hr0].
    cbn [String.length] in Hlen. cbn [utf8_decode] in Hd.
    destruct (byte_val b0 <? 128)%Z eqn:H1.
    { destruct (utf8_decode r0) as [cps'|] eqn:Hr; [|discriminate].
      injection Hd as <-. intros [Hc|Hin].
      - apply byte_val_paren in Hc. subst b0. discriminate.
      - revert Hin. apply (IH r0); [lia | exact Hr | exact Hr0]. }
    destruct ((194 <=? byte_val b0) && (byte_val b0 <=? 223))%Z eqn:H2.
    { destruct r0 as [|b1 r1]; [discriminate|].
      destruct (cont_bits b1) as [x1|] eqn:Hx1; [|discriminate].
      destruct (utf8_decode r1) as [cps'|] eqn:Hr; [|discriminate].
      injection Hd as <-.
      rewrite no_paren_cons in Hr0. apply andb_prop in Hr0 as [_ Hr1].
      apply cont_bits_range in Hx1. apply andb_prop in H2 as [H2 _]. apply Z.leb_le in H2.
      cbn [String.length] in Hlen.
      intros [Hc|Hin]; [unfold lparen in Hc; lia|].
      revert Hin. apply (IH r1); [lia | exact Hr | exact Hr1]. }
    destruct ((224 <=? byte_val b0) && (byte_val b0 <=? 239))%Z eqn:H3.
    { destruct r0 as [|b1 [|b2 r2]]; try discriminate.
      destruct (cont_bits b1) as [x1|], (cont_bits b2) as [x2|]; try discriminate.
      match type of Hd with (if ?g then _ else _) = _ => destruct g eqn:Hg end; [|discriminate].
      destruct (utf8_decode r2) as [cps'|] eqn:Hr; [|discriminate].
      injection Hd as <-.
      rewrite !no_paren_cons in Hr0. apply andb_prop in Hr0 as [_ Hr0]. apply andb_prop in Hr0 as [_ Hr2].
      apply andb_prop in Hg as [Hg _]. apply Z.leb_le in Hg.
      cbn [String.length] in Hlen.
      intros [Hc|Hin]; [unfold lparen in Hc; lia|].
      revert Hin. apply (IH r2); [lia | exact Hr | exact Hr2]. }
    destruct ((240 <=? byte_val b0) && (byte_val b0 <=? 244))%Z eqn:H4; [|discriminate].
    destruct r0 as [|b1 [|b2 [|b3 r3]]]; try discriminate.
    destruct (cont_bits b1) as [x1|], (cont_bits b2) as [x2|], (cont_bits b3) as [x3|]; try discriminate.
    match type of Hd with (if ?g then _ else _) = _ => destruct g eqn:Hg end; [|discriminate].
    destruct (utf8_decode r3) as [cps'|] eqn:Hr; [|discriminate].
    injection Hd as <-.
    rewrite !no_paren_cons in Hr0. apply andb_prop in Hr0 as [_ Hr0].
    apply andb_prop in Hr0 as [_ Hr0]. apply andb_prop in Hr0 as [_ Hr3].
    apply andb_prop in Hg as [Hg _]. apply Z.leb_le in Hg.
    cbn [String.length] in Hlen.
    intros [Hc|Hin]; [unfold lparen in Hc; lia|].
    revert Hin. apply (IH r3); [lia | exact Hr | exact Hr3].
Qed.

Lemma lookup_str_sound (f : string -> option Z) (tbl : list (string * Z)) :
  Forall (fun '(k, z) => f k = Some z) tbl ->
  forall s z, lookup_str tbl s = Some z -> f s = Some z.
Proof.
  induction 1 as [|[k z'] tbl' Hk _ IH]; intros s z H; simpl in H; [discriminate|].
  destruct (String.eqb_spec s k) as [->|_]; [congruence | auto].
Qed.

Ltac tables_ok := repeat constructor.

Lemma flag_table (tbl : list (string * Z)) (yes : string) s z :
  Forall (fun '(k, z) => Some (flag k yes) = Some z) tbl ->
  lookup_str tbl s = Some z -> flag s yes = z.
Proof.
  intros Hall H.
  apply (lookup_str_sound (fun k => Some (flag k yes)) tbl Hall) in H.
  congruence.
Qed.

Lemma code_table (tbl : list (string * Z)) s z :
  Forall (fun '(k, z) => parse_code k = Some z) tbl ->
  lookup_str tbl s = Some z -> parse_code s = Some z.
Proof. intros Hall; exact (lookup_str_sound parse_code tbl Hall s z). Qed.

Lemma input_data_some r v :
  input_data r = Some v ->
  exists cp' restecg' slope' thal',
    parse_code (cp r) = Some cp' /\ parse_code (restecg r) = Some restecg' /\
    parse_code (slope r) = Some slope' /\ parse_code (thal r) = Some thal' /\
    v = [Qz (age r); Qz (flag (sex r) "Male"); Qz cp'; Qz (trestbps r); Qz (chol r);
         Qz (flag (fbs r) "True"); Qz restecg'; Qz (thalach r);
         Qz (flag (exang r) "Yes"); oldpeak r; Qz slope'; Qz (ca r); Qz thal'].
Proof.
  unfold input_data.
  destruct (parse_code (cp r)), (parse_code (restecg r)),
           (parse_code (slope r)), (parse_code (thal r)); intro H; try discriminate.
  injection H as <-. do 4 eexists. repeat split.
Qed.

(** C1: the vector handed to the scaler holds, at position i, the encoded
    field named by the i-th entry of
    [age, sex, cp, trestbps, chol, fbs, restecg, thalach, exang, oldpeak,
    slope, ca, thal]; it is this raw vector, before scaling, that is
    persisted, under the header made of the same 13 names followed by
    prediction and risk_level. *)
Theorem C1_feature_order (transform : list Q -> list Q) (predict : list Q -> Z)
    (r : raw_input) (v : list Q) :
  input_data r = Some v ->
  length v = 13%nat /\
  (forall i c, nth_error feature_columns i = Some c -> nth_error v i = field_value r c) /\
  (forall s, predict_button transform predict r s =
             let p := predict (transform v) in
             Some (mk_outcome (result_banner p) (record_df v p),
                   append_csv s (record_df v p))) /\
  columns (record_df v (predict (transform v))) =
    ["age"; "sex"; "cp"; "trestbps"; "chol"; "fbs"; "restecg";
     "thalach"; "exang"; "oldpeak"; "slope"; "ca"; "thal"; "prediction"; "risk_level"] /\
  rows (record_df v (predict (transform v))) =
    [map CNum v ++ [CNum (Qz (predict (transform v)));
                    CStr (risk_level (predict (transform v)))]].
Proof.
  intros H.
  pose proof (input_data_some r v H) as (cp' & re' & sl' & th' & Hc & Hr & Hs & Ht & ->).
  split; [reflexivity|]. split.
  - intros i c Hi.
    do 13 (destruct i as [|i]; [injection Hi as <-; unfold field_value; simpl;
                                 rewrite ?Hc, ?Hr, ?Hs, ?Ht; reflexivity|]).
    destruct i; discriminate.
  - split; [intros s; unfold predict_button; rewrite H; reflexivity|].
    split; reflexivity.
Qed.

Lemma C1_feature_order_witness :
  input_data default_input =
    Some [Qz 45; Qz 1; Qz 4; Qz 120; Qz 200; Qz 0; Qz 0; Qz 150; Qz 0; 1 # 1;
          Qz 2; Qz 0; Qz 3] /\
  length [Qz 45; Qz 1; Qz 4; Qz 120; Qz 200; Qz 0; Qz 0; Qz 150; Qz 0; 1 # 1;
          Qz 2; Qz 0; Qz 3] = 13%nat.
Proof.
  split; [reflexivity|].
  apply (C1_feature_order (fun v => v) (fun _ => 1%Z) default_input).
  reflexivity.
Defined.

(** C2: on inputs drawn from the known choices the encoder maps each
    categorical or boolean field by its fixed table (Male 1 / Female 0,
    True 1 / False 0, Yes 1 / No 0, "Typical Angina (1)" 1, ...) and passes
    the numeric fields through unchanged. *)
Theorem C2_encoding_tables (r : raw_input) (sx cpx fx rx ex slx thx : Z) :
  lookup_str sex_table (sex r) = Some sx ->
  lookup_str cp_table (cp r) = Some cpx ->
  lookup_str fbs_table (fbs r) = Some fx ->
  lookup_str restecg_table (restecg r) = Some rx ->
  lookup_str exang_table (exang r) = Some ex ->
  lookup_str slope_table (slope r) = Some slx ->
  lookup_str thal_table (thal r) = Some thx ->
  input_data r =
    Some [Qz (age r); Qz sx; Qz cpx; Qz (trestbps r); Qz (chol r); Qz fx; Qz rx;
          Qz (thalach r); Qz ex; oldpeak r; Qz slx; Qz (ca r); Qz thx].
Proof.
  intros Hsx Hcp Hfb Hre Hex Hsl Hth.
  apply (flag_table _ "Male") in Hsx; [|tables_ok].
  apply (flag_table _ "True") in Hfb; [|tables_ok].
  apply (flag_table _ "Yes") in Hex; [|tables_ok].
  apply code_table in Hcp; [|tables_ok].
  apply code_table in Hre; [|tables_ok].
  apply code_table in Hsl; [|tables_ok].
  apply code_table in Hth; [|tables_ok].
  unfold input_data. rewrite Hcp, Hre, Hsl, Hth, Hsx, Hfb, Hex. reflexivity.
Qed.

(** The worked example of the specification, spelled as the specification
    spells it ("Asymptomatic(4)", no space): [45,1,4,120,200,0,0,150,0,1.0,2,0,3]. *)
Example spec_example_encoding :
  input_data (mk_raw 45 "Male" "Asymptomatic(4)" 120 200 "False" "Normal(0)" 150 "No"
                     (1 # 1) "Flat(2)" 0 "Normal(3)") =
    Some [Qz 45; Qz 1; Qz 4; Qz 120; Qz 200; Qz 0; Qz 0; Qz 150; Qz 0; 1 # 1;
          Qz 2; Qz 0; Qz 3].
Proof. reflexivity. Qed.

Lemma C2_encoding_tables_witness :
  input_data default_input =
    Some [Qz 45; Qz 1; Qz 4; Qz 120; Qz 200; Qz 0; Qz 0; Qz 150; Qz 0; 1 # 1;
          Qz 2; Qz 0; Qz 3].
Proof.
  exact (C2_encoding_tables default_input 1 4 0 0 0 2 3
           eq_refl eq_refl eq_refl eq_refl eq_refl eq_refl eq_refl).
Defined.

Lemma risk_level_cases (p : Z) :
  (risk_level p = "High" /\ p = 1%Z) \/ (risk_level p = "Low" /\ p <> 1%Z).
Proof.
  unfold risk_level. destruct (Z.eqb_spec p 1); [left | right]; auto.
Qed.

(** C3: the risk level derived from a prediction is "High" exactly when the
    label is 1 and "Low" otherwise; it is the value of the risk_level cell of
    the row shown and persisted, and the banner shown is the error banner
    exactly when the label is 1. *)
Theorem C3_risk_level (transform : list Q -> list Q) (predict : list Q -> Z)
    (r : raw_input) (s s' : fs) (o : outcome) :
  predict_button transform predict r s = Some (o, s') ->
  exists v, input_data r = Some v /\
    let p := predict (transform v) in
    ((risk_level p = "High" /\ p = 1%Z) \/ (risk_level p = "Low" /\ p <> 1%Z)) /\
    cell_at record_columns (map CNum v ++ [CNum (Qz p); CStr (risk_level p)]) "risk_level"
      = CStr (risk_level p) /\
    rows (shown_summary o) = [map CNum v ++ [CNum (Qz p); CStr (risk_level p)]] /\
    records_csv s' = Some (updated_data (records_csv s) (record_df v p)) /\
    shown_banner o = (if Z.eqb p 1 then StError "⚠️ High Risk of Heart Disease"
                      else StSuccess "✅ Low Risk - Stable Condition").
Proof.
  unfold predict_button. destruct (input_data r) as [v|] eqn:Hv; [|discriminate].
  intros H. injection H as <- <-. exists v. split; [reflexivity|].
  pose proof (input_data_some r v Hv) as (? & ? & ? & ? & _ & _ & _ & _ & ->).
  cbn zeta. split; [apply risk_level_cases|].
  split; [reflexivity|]. split; [reflexivity|]. split; [reflexivity|].
  simpl. unfold result_banner, risk_message.
  destruct (Z.eqb (predict (transform _)) 1); reflexivity.
Qed.

Lemma C3_risk_level_witness :
  exists v, input_data default_input = Some v /\
    ((risk_level 1 = "High" /\ 1%Z = 1%Z) \/ (risk_level 1 = "Low" /\ 1%Z <> 1%Z)) /\
    shown_banner (mk_outcome (result_banner 1) (record_df v 1)) = StError "⚠️ High Risk of Heart Disease".
Proof.
  destruct (C3_risk_level (fun v => v) (fun _ => 1%Z) default_input (mk_fs false None)
              (append_csv (mk_fs false None) (record_df (match input_data default_input with Some v => v | None => [] end) 1))
              (mk_outcome (result_banner 1) (record_df (match input_data default_input with Some v => v | None => [] end) 1))
              eq_refl)
    as (v & Hv & Hcase & _ & _ & _ & _).
  exists v. split; [exact Hv|]. split; [exact Hcase|]. reflexivity.
Defined.

(** C6: with no records file, reading the records gives the empty sequence,
    the analytics section shows its "no records yet" notice without raising,
    and an append starts from no prior rows. *)
Theorem C6_read_missing_store :
  read_all None = [] /\ visual_analytics None = Some NoRecordsInfo /\
  (forall df, updated_data None df = df).
Proof. repeat split. Qed.

(** ** Store lemmas *)

Lemma str_list_eqb_true a b : str_list_eqb a b = true -> a = b.
Proof.
  revert b; induction a as [|x a IH]; intros [|y b] H; simpl in H; try discriminate; auto.
  apply andb_prop in H as [Hxy Hab]. apply String.eqb_eq in Hxy as ->.
  f_equal. auto.
Qed.

Lemma str_list_eqb_refl a : str_list_eqb a a = true.
Proof. induction a; simpl; [reflexivity|]. rewrite String.eqb_refl. assumption. Qed.

Lemma str_mem_In c l : str_mem c l = true <-> In c l.
Proof.
  induction l as [|c' l IH]; simpl; [split; [discriminate|tauto]|].
  rewrite Bool.orb_true_iff, IH, String.eqb_eq. intuition congruence.
Qed.

Lemma cell_at_reindex old (row : list cell) cols c :
  str_mem c cols = true -> cell_at cols (reindex old cols row) c = cell_at old row c.
Proof.
  unfold reindex. induction cols as [|c' cols IH]; simpl; [discriminate|].
  destruct (String.eqb_spec c c') as [->|_]; simpl; auto.
Qed.

Lemma str_mem_union c a b :
  str_mem c b = true -> str_mem c (a ++ filter (fun x => negb (str_mem x a)) b) = true.
Proof.
  rewrite !str_mem_In, in_app_iff, filter_In. intros Hb.
  destruct (str_mem c a) eqn:Ha; [left; apply str_mem_In; exact Ha | right; auto].
Qed.

Lemma filter_not_mem_self (l : list string) :
  filter (fun c => negb (str_mem c l)) l = [].
Proof.
  assert (H : forall m, incl m l -> filter (fun c => negb (str_mem c l)) m = []).
  { induction m as [|c m IH]; intros Hm; [reflexivity|]. simpl.
    assert (Hc : str_mem c l = true) by (apply str_mem_In, Hm; left; reflexivity).
    rewrite Hc. apply IH. intros x Hx. apply Hm. right. exact Hx. }
  apply H. intros x Hx. exact Hx.
Qed.

Lemma cell_at_not_mem cols (row : list cell) c :
  str_mem c cols = false -> cell_at cols row c = CNaN.
Proof.
  revert row; induction cols as [|c' cols IH]; intros [|x row] H; cbn in *; try reflexivity.
  apply orb_false_iff in H as [H1 H2]. rewrite H1. apply IH, H2.
Qed.

Lemma cell_at_own cols (row : list cell) c :
  cell_at cols row c = if str_mem c cols then cell_at cols row c else CNaN.
Proof. destruct (str_mem c cols) eqn:H; [reflexivity | apply cell_at_not_mem, H]. Qed.

(** The header of [concat a b] is that of [a] followed by the columns of
    [b] it lacks, in both branches of [concat]. *)
Lemma concat_columns a b :
  columns (concat a b) = columns a ++ filter (fun c => negb (str_mem c (columns a))) (columns b).
Proof.
  unfold concat. destruct (str_list_eqb (columns a) (columns b)) eqn:Heq; [|reflexivity].
  apply str_list_eqb_true in Heq. cbn [columns]. rewrite <- Heq, filter_not_mem_self, app_nil_r.
  reflexivity.
Qed.

(** [concat a b] holds the rows of [a], then those of [b], each with its
    own values under every column of the result. *)
Lemma concat_rows (a b : table) :
  length (rows (concat a b)) = (length (rows a) + length (rows b))%nat /\
  (forall i row, nth_error (rows a) i = Some row ->
     exists row', nth_error (rows (concat a b)) i = Some row' /\
       forall c, str_mem c (columns (concat a b)) = true ->
                 cell_at (columns (concat a b)) row' c = cell_at (columns a) row c) /\
  (forall i row, nth_error (rows b) i = Some row ->
     exists row', nth_error (rows (concat a b)) (length (rows a) + i) = Some row' /\
       forall c, str_mem c (columns (concat a b)) = true ->
                 cell_at (columns (concat a b)) row' c = cell_at (columns b) row c).
Proof.
  unfold concat. destruct (str_list_eqb (columns a) (columns b)) eqn:Heq.
  - apply str_list_eqb_true in Heq. cbn [columns rows].
    split; [apply length_app|]. split.
    + intros i row Hi. exists row. split; [|reflexivity].
      rewrite nth_error_app1; [exact Hi|]. apply nth_error_Some. congruence.
    + intros i row Hi. exists row. split; [|intros c _; rewrite Heq; reflexivity].
      rewrite nth_error_app2 by lia. replace (length (rows a) + i - length (rows a))%nat with i by lia.
      exact Hi.
  - cbn [columns rows].
    set (cols := columns a ++ filter (fun c => negb (str_mem c (columns a))) (columns b)).
    split; [rewrite length_app, !length_map; reflexivity|]. split.
    + intros i row Hi. exists (reindex (columns a) cols row). split.
      * rewrite nth_error_app1.
        -- rewrite nth_error_map, Hi. reflexivity.
        -- rewrite length_map. apply nth_error_Some. congruence.
      * intros c Hc. apply cell_at_reindex. exact Hc.
    + intros i row Hi. exists (reindex (columns b) cols row). split.
      * rewrite nth_error_app2 by (rewrite length_map; lia).
        rewrite length_map. replace (length (rows a) + i - length (rows a))%nat with i by lia.
        rewrite nth_error_map, Hi. reflexivity.
      * intros c Hc. apply cell_at_reindex. exact Hc.
Qed.

(** Appending a frame whose header is the file's own header (or appending
    to no file) adds its rows after the existing ones and keeps the header. *)
Lemma updated_data_same_schema (csv : option table) (df : table) :
  (csv = None \/ exists t, csv = Some t /\ columns t = columns df) ->
  columns (updated_data csv df) = columns df /\
  rows (updated_data csv df) = match csv with Some t => rows t | None => [] end ++ rows df.
Proof.
  intros [->|(t & -> & Ht)]; [split; reflexivity|].
  simpl. unfold concat. rewrite Ht, str_list_eqb_refl. split; reflexivity.
Qed.

Lemma read_all_app cols (r1 r2 : list (list cell)) :
  read_all (Some (mk_table cols (r1 ++ r2))) =
  read_all (Some (mk_table cols r1)) ++ read_all (Some (mk_table cols r2)).
Proof. unfold read_all; simpl. apply map_app. Qed.

Lemma predict_button_inv transform predict r s o s' :
  predict_button transform predict r s = Some (o, s') ->
  exists v, input_data r = Some v /\
    o = mk_outcome (result_banner (predict (transform v))) (record_df v (predict (transform v))) /\
    s' = append_csv s (record_df v (predict (transform v))).
Proof.
  unfold predict_button. destruct (input_data r) as [v|]; [|discriminate].
  intros H. injection H as <- <-. eauto.
Qed.

(** C4: after the predict button has appended a record, the last row of the
    records file holds, under every one of the 15 column names, the value of
    the appended record: the 13 raw (unscaled) values of [input_data], the
    label and its risk level.  When the file had the app's own header (or did
    not exist), that last row, read as a record, is the appended record. *)
Theorem C4_append_then_read_last (transform : list Q -> list Q) (predict : list Q -> Z)
    (r : raw_input) (s s' : fs) (o : outcome) :
  predict_button transform predict r s = Some (o, s') ->
  exists v t' pre row, input_data r = Some v /\ records_csv s' = Some t' /\
    rows t' = pre ++ [row] /\
    let p := predict (transform v) in
    let newrow := map CNum v ++ [CNum (Qz p); CStr (risk_level p)] in
    (forall c, In c record_columns -> cell_at (columns t') row c = cell_at record_columns newrow c) /\
    ((records_csv s = None \/ exists t, records_csv s = Some t /\ columns t = record_columns) ->
     columns t' = record_columns /\ row = newrow /\
     exists pre', read_all (Some t') = pre' ++ [as_record record_columns newrow]).
Proof.
  intros H. apply predict_button_inv in H as (v & Hv & _ & ->).
  set (p := predict (transform v)).
  set (newrow := map CNum v ++ [CNum (Qz p); CStr (risk_level p)]).
  cbn [append_csv records_csv].
  destruct (records_csv s) as [t|] eqn:Hs.
  - simpl. unfold concat.
    destruct (str_list_eqb (columns t) (columns (record_df v p))) eqn:Heq.
    + apply str_list_eqb_true in Heq. simpl in Heq.
      exists v, (mk_table (columns t) (rows t ++ [newrow])), (rows t), newrow.
      split; [exact Hv|]. split; [reflexivity|]. split; [reflexivity|]. cbn zeta.
      split; [intros c _; cbn [columns]; rewrite Heq; reflexivity|].
      intros _. split; [exact Heq|]. split; [reflexivity|].
      exists (map (as_record (columns t)) (rows t)).
      unfold read_all; simpl. rewrite map_app, Heq. reflexivity.
    + set (cols := columns t ++ filter (fun c => negb (str_mem c (columns t))) record_columns).
      exists v, (mk_table cols (map (reindex (columns t) cols) (rows t) ++
                                 [reindex record_columns cols newrow])),
             (map (reindex (columns t) cols) (rows t)),
             (reindex record_columns cols newrow).
      split; [exact Hv|]. split; [reflexivity|]. split; [reflexivity|]. cbn zeta. split.
      * intros c Hc. simpl. apply cell_at_reindex.
        apply str_mem_union. apply str_mem_In. exact Hc.
      * intros [Hn|(t0 & Ht0 & Hc)]; [discriminate|].
        injection Ht0 as <-. rewrite Hc, str_list_eqb_refl in Heq. discriminate.
  - exists v, (record_df v p), [], newrow.
    split; [exact Hv|]. split; [reflexivity|]. split; [reflexivity|]. cbn zeta.
    split; [reflexivity|]. intros _. split; [reflexivity|]. split; [reflexivity|].
    exists []. reflexivity.
Qed.

Lemma C4_append_then_read_last_witness :
  exists v t' pre row, input_data default_input = Some v /\
    records_csv (append_csv (mk_fs false None) (record_df (match input_data default_input with Some v => v | None => [] end) 0)) = Some t' /\
    rows t' = pre ++ [row].
Proof.
  destruct (C4_append_then_read_last (fun v => v) (fun _ => 0%Z) default_input (mk_fs false None)
              (append_csv (mk_fs false None) (record_df (match input_data default_input with Some v => v | None => [] end) 0))
              (mk_outcome (result_banner 0) (record_df (match input_data default_input with Some v => v | None => [] end) 0))
              eq_refl)
    as (v & t' & pre & row & Hv & Ht & Hr & _).
  exists v, t', pre, row. auto.
Defined.

(** C10: on a records file with the app's header, or none, an append keeps
    every earlier row as it was and in its place and adds the new record at
    the end; the data directory exists afterwards, and the first append
    creates a file holding exactly that one row. *)
Theorem C10_append_frame (transform : list Q -> list Q) (predict : list Q -> Z)
    (r : raw_input) (s s' : fs) (o : outcome) :
  (records_csv s = None \/ exists t, records_csv s = Some t /\ columns t = record_columns) ->
  predict_button transform predict r s = Some (o, s') ->
  exists v, input_data r = Some v /\
    let p := predict (transform v) in
    let newrow := map CNum v ++ [CNum (Qz p); CStr (risk_level p)] in
    data_dir s' = true /\
    read_all (records_csv s') = read_all (records_csv s) ++ [as_record record_columns newrow] /\
    (records_csv s = None -> records_csv s' = Some (mk_table record_columns [newrow])).
Proof.
  intros Hs H. apply predict_button_inv in H as (v & Hv & _ & ->).
  exists v. split; [exact Hv|]. cbn zeta. split; [reflexivity|].
  destruct (updated_data_same_schema (records_csv s) (record_df v (predict (transform v))) Hs)
    as [Hc Hr].
  split.
  - simpl. destruct (updated_data (records_csv s) _) as [cols rws] eqn:Hu.
    simpl in Hc, Hr. subst cols rws.
    destruct Hs as [Hn|(t & Ht & Hct)].
    + rewrite Hn. reflexivity.
    + rewrite Ht. unfold read_all; simpl. rewrite map_app, Hct. reflexivity.
  - intros Hn. simpl. rewrite Hn. reflexivity.
Qed.

Lemma C10_append_frame_witness :
  exists v, input_data default_input = Some v /\
    read_all (records_csv (append_csv (mk_fs true (Some (app_store [(default_vector, 0%Z)])))
                (record_df (match input_data default_input with Some v => v | None => [] end) 1)))
      = read_all (Some (app_store [(default_vector, 0%Z)])) ++
        [as_record record_columns (map CNum v ++ [CNum (Qz 1); CStr "High"])].
Proof.
  destruct (C10_append_frame (fun v => v) (fun _ => 1%Z) default_input
              (mk_fs true (Some (app_store [(default_vector, 0%Z)])))
              (append_csv (mk_fs true (Some (app_store [(default_vector, 0%Z)])))
                 (record_df (match input_data default_input with Some v => v | None => [] end) 1))
              (mk_outcome (result_banner 1) (record_df (match input_data default_input with Some v => v | None => [] end) 1))
              (or_intror (ex_intro _ (app_store [(default_vector, 0%Z)]) (conj eq_refl eq_refl)))
              eq_refl)
    as (v & Hv & _ & Hread & _).
  exists v. split; [exact Hv|]. rewrite Hread. reflexivity.
Defined.

(** C5, as the claim states it, fails: the app's append never checks the
    header.  On a file whose columns are the app's in reverse order the
    append succeeds and keeps that order; on a file with only [age] and
    [thalach] it succeeds and widens the header, padding the old row with NaN. *)
Lemma C5_schema_counterexample :
  (exists o t', predict_button (fun v => v) (fun _ => 0%Z) default_input
                  (mk_fs true (Some reversed_store)) = Some (o, mk_fs true (Some t')) /\
                columns t' = rev record_columns /\ length (rows t') = 2%nat) /\
  (exists o t', predict_button (fun v => v) (fun _ => 0%Z) default_input
                  (mk_fs true (Some legacy_store)) = Some (o, mk_fs true (Some t')) /\
                columns t' = ["age"; "thalach"; "sex"; "cp"; "trestbps"; "chol"; "fbs";
                              "restecg"; "exang"; "oldpeak"; "slope"; "ca"; "thal";
                              "prediction"; "risk_level"] /\
                hd [] (rows t') = [CNum (Qz 50); CNum (Qz 140); CNaN; CNaN; CNaN; CNaN;
                                   CNaN; CNaN; CNaN; CNaN; CNaN; CNaN; CNaN; CNaN; CNaN]).
Proof.
  split; do 2 eexists; split; try reflexivity; split; reflexivity.
Qed.

(** C5 (amended): the first write creates the file with the 15 columns
    age, ..., thal, prediction, risk_level in that order and the one new
    row.  A later append never fails on the header: the header becomes the
    stored one followed by those of the 15 names it lacks (unchanged when it
    already has them all, in whatever order); every stored row stays in its
    place with its values, NaN under the added columns; and exactly one row
    is added after them, holding the new record's value under each of the
    15 names, aligned by name, and NaN under the other columns. *)
Theorem C5_schema_amended (transform : list Q -> list Q) (predict : list Q -> Z)
    (r : raw_input) (s : fs) (v : list Q) :
  input_data r = Some v ->
  let p := predict (transform v) in
  let newrow := map CNum v ++ [CNum (Qz p); CStr (risk_level p)] in
  exists o t', predict_button transform predict r s = Some (o, mk_fs true (Some t')) /\
    (records_csv s = None -> columns t' = record_columns /\ rows t' = [newrow]) /\
    (forall t, records_csv s = Some t ->
       columns t' = columns t ++ filter (fun c => negb (str_mem c (columns t))) record_columns /\
       length (rows t') = S (length (rows t)) /\
       (forall i row, nth_error (rows t) i = Some row ->
          exists row', nth_error (rows t') i = Some row' /\
            forall c, str_mem c (columns t') = true ->
              cell_at (columns t') row' c =
                if str_mem c (columns t) then cell_at (columns t) row c else CNaN) /\
       (exists row', nth_error (rows t') (length (rows t)) = Some row' /\
          forall c, str_mem c (columns t') = true ->
            cell_at (columns t') row' c =
              if str_mem c record_columns then cell_at record_columns newrow c else CNaN)).
Proof.
  intros Hv. cbv zeta. unfold predict_button. rewrite Hv.
  set (df := record_df v (predict (transform v))).
  unfold append_csv, updated_data.
  destruct (records_csv s) as [t|] eqn:Hs.
  - exists (mk_outcome (result_banner (predict (transform v))) df), (concat t df).
    split; [reflexivity|]. split; [discriminate|].
    intros t0 Ht0. injection Ht0 as <-.
    destruct (concat_rows t df) as (Hl & Ha & Hb).
    split; [apply concat_columns|].
    split; [rewrite Hl; cbn; lia|]. split.
    + intros i row Hi. destruct (Ha i row Hi) as (row' & H1 & H2).
      exists row'. split; [exact H1|]. intros c Hc. rewrite (H2 c Hc). apply cell_at_own.
    + destruct (Hb 0%nat (map CNum v ++ [CNum (Qz (predict (transform v)));
                                         CStr (risk_level (predict (transform v)))]) eq_refl)
        as (row' & H1 & H2).
      rewrite Nat.add_0_r in H1.
      exists row'. split; [exact H1|]. intros c Hc. rewrite (H2 c Hc). apply (cell_at_own record_columns).
  - exists (mk_outcome (result_banner (predict (transform v))) df), df.
    split; [reflexivity|]. split; [intros _; split; reflexivity | discriminate].
Qed.

Lemma C5_schema_amended_witness :
  exists o t', predict_button (fun v => v) (fun _ => 1%Z) default_input (mk_fs true (Some legacy_store))
                 = Some (o, mk_fs true (Some t')) /\
    columns t' = ["age"; "thalach"] ++ filter (fun c => negb (str_mem c ["age"; "thalach"])) record_columns /\
    length (rows t') = 2%nat.
Proof.
  destruct (C5_schema_amended (fun v => v) (fun _ => 1%Z) default_input (mk_fs true (Some legacy_store))
              default_vector eq_refl) as (o & t' & H & _ & Hold).
  destruct (Hold legacy_store eq_refl) as (Hc & Hl & _).
  exists o, t'. split; [exact H|]. split; [exact Hc | exact Hl].
Defined.




(** ** value_counts *)

Lemma cell_eqb_sym a b : cell_eqb a b = cell_eqb b a.
Proof.
  destruct a as [x|x|], b as [y|y|]; simpl; try reflexivity.
  - apply eq_true_iff_eq. rewrite !Qeq_bool_iff. split; apply Qeq_sym.
  - apply String.eqb_sym.
Qed.

Lemma cell_eqb_trans a b c : cell_eqb a b = true -> cell_eqb b c = true -> cell_eqb a c = true.
Proof.
  destruct a as [x|x|], b as [y|y|], c as [z|z|]; simpl; try discriminate.
  - rewrite !Qeq_bool_iff. apply Qeq_trans.
  - rewrite !String.eqb_eq. congruence.
Qed.

Lemma count_of_vc_add x y acc :
  count_of (vc_add y acc) x = if cell_eqb x y then bump (count_of acc x) else count_of acc x.
Proof.
  induction acc as [|[z n] acc IH]; simpl.
  - destruct (cell_eqb x y); reflexivity.
  - destruct (cell_eqb y z) eqn:Hyz; simpl.
    + destruct (cell_eqb x y) eqn:Hxy.
      * rewrite (cell_eqb_trans _ _ _ Hxy Hyz). reflexivity.
      * destruct (cell_eqb x z) eqn:Hxz; [|reflexivity].
        rewrite cell_eqb_sym in Hyz.
        rewrite (cell_eqb_trans _ _ _ Hxz Hyz) in Hxy. discriminate.
    + rewrite IH. destruct (cell_eqb x z) eqn:Hxz; [|reflexivity].
      destruct (cell_eqb x y) eqn:Hxy; [|reflexivity].
      rewrite cell_eqb_sym in Hxy.
      rewrite (cell_eqb_trans _ _ _ Hxy Hxz) in Hyz. discriminate.
Qed.

Lemma count_of_fold x cs acc :
  count_of (fold_left (fun acc c => if is_nan c then acc else vc_add c acc) cs acc) x =
  add_count (count_of acc x) (length (filter (cell_eqb x) cs)).
Proof.
  revert acc. induction cs as [|c cs IH]; intros acc; simpl.
  - destruct (count_of acc x); simpl; [f_equal; lia | reflexivity].
  - rewrite IH. destruct (is_nan c) eqn:Hn.
    + destruct c; try discriminate.
      replace (cell_eqb x CNaN) with false by (destruct x; reflexivity). reflexivity.
    + rewrite count_of_vc_add.
      destruct (cell_eqb x c); simpl;
        destruct (count_of acc x) as [n|]; simpl; try reflexivity;
        try (f_equal; lia);
        destruct (length _); reflexivity.
Qed.

Lemma count_of_value_counts x cs :
  count_of (value_counts cs) x = nz (length (filter (cell_eqb x) cs)).
Proof. unfold value_counts. rewrite count_of_fold. reflexivity. Qed.

Lemma column_app_store (entries : list (list Q * Z)) c :
  str_mem c record_columns = true ->
  column (app_store entries) c =
    Some (map (fun row => cell_at record_columns row c) (map app_row entries)).
Proof. intros H. unfold column. cbn [columns app_store]. rewrite H. reflexivity. Qed.

Lemma risk_column (entries : list (list Q * Z)) :
  Forall (fun e => length (fst e) = 13%nat) entries ->
  column (app_store entries) "risk_level" =
    Some (map (fun e => CStr (risk_level (snd e))) entries).
Proof.
  intros Hall. unfold column. simpl. f_equal. rewrite map_map.
  induction Hall as [|[v p] entries Hlen _ IH]; [reflexivity|].
  simpl. rewrite IH. f_equal. simpl in Hlen.
  do 13 (destruct v as [|? v]; [discriminate|]). destruct v; [reflexivity|discriminate].
Qed.

Lemma count_levels (entries : list (list Q * Z)) :
  length (filter (cell_eqb (CStr "High")) (map (fun e => CStr (risk_level (snd e))) entries))
    = length (filter (fun e => Z.eqb (snd e) 1) entries) /\
  length (filter (cell_eqb (CStr "Low")) (map (fun e => CStr (risk_level (snd e))) entries))
    = length (filter (fun e => negb (Z.eqb (snd e) 1)) entries).
Proof.
  induction entries as [|[v p] entries [IH1 IH2]]; [split; reflexivity|].
  cbn [map filter snd]. destruct (risk_level_cases p) as [[-> ->]|[-> Hp]].
  - cbn. rewrite IH1, IH2. split; reflexivity.
  - rewrite (proj2 (Z.eqb_neq p 1) Hp). cbn. rewrite IH1, IH2. split; reflexivity.
Qed.

(** C8, as the claim states it, fails: on a file holding one row of label 0
    (k = 0, m = 1) the counts charted map "Low" to 1 and have no entry for
    "High", rather than mapping it to 0. *)
Lemma C8_counts_counterexample :
  exists a b rc, visual_analytics (Some (app_store [(default_vector, 0%Z)])) = Some (Charts a b rc) /\
    count_of rc (CStr "High") = None /\ count_of rc (CStr "Low") = Some 1%nat.
Proof. do 3 eexists. split; [reflexivity|]. split; reflexivity. Qed.

(** C8 (amended): on a records file of rows written by the app, k of them
    with label 1 and m with another label, the risk-level counts charted
    ([value_counts] of risk_level) map "High" to k and "Low" to m, and
    list only the levels that occur: a level with no row has no entry. *)
Theorem C8_risk_counts_amended (entries : list (list Q * Z)) :
  Forall (fun e => length (fst e) = 13%nat) entries ->
  exists a b rc, visual_analytics (Some (app_store entries)) = Some (Charts a b rc) /\
    count_of rc (CStr "High") = nz (length (filter (fun e => Z.eqb (snd e) 1) entries)) /\
    count_of rc (CStr "Low") = nz (length (filter (fun e => negb (Z.eqb (snd e) 1)) entries)).
Proof.
  intros Hall. unfold visual_analytics. rewrite (risk_column entries Hall).
  rewrite !column_app_store by reflexivity.
  do 3 eexists. split; [reflexivity|].
  rewrite !count_of_value_counts. destruct (count_levels entries) as [-> ->].
  split; reflexivity.
Qed.

Lemma C8_risk_counts_amended_witness :
  exists a b rc, visual_analytics (Some (app_store [(default_vector, 1%Z); (default_vector, 0%Z);
                                                   (default_vector, 1%Z)])) = Some (Charts a b rc) /\
    count_of rc (CStr "High") = Some 2%nat /\ count_of rc (CStr "Low") = Some 1%nat.
Proof.
  exact (C8_risk_counts_amended [(default_vector, 1%Z); (default_vector, 0%Z); (default_vector, 1%Z)]
           ltac:(repeat constructor)).
Defined.

(** ** Sessions *)














(** ** Further properties of the script *)

(** X2: a string with no "(" cannot be encoded: [split("(")[1]] raises. *)
Theorem parse_code_no_paren (s : string) :
  no_paren s = true -> parse_code s = None.
Proof.
  intros H. destruct (utf8_decode s) as [cps|] eqn:Hd.
  - apply (parse_code_no_code s cps Hd). left.
    exact (utf8_decode_no_paren (String.length s) s cps (Nat.le_refl _) Hd H).
  - unfold parse_code. rewrite Hd. reflexivity.
Qed.

Lemma parse_code_no_paren_witness : parse_code "Typical Angina" = None.
Proof. exact (parse_code_no_paren "Typical Angina" eq_refl). Defined.

Lemma app_row_cells (e : list Q * Z) :
  length (fst e) = 13%nat ->
  cell_at record_columns (app_row e) "age" = CNum (nth 0 (fst e) 0%Q) /\
  cell_at record_columns (app_row e) "thalach" = CNum (nth 7 (fst e) 0%Q) /\
  cell_at record_columns (app_row e) "prediction" = CNum (Qz (snd e)) /\
  cell_at record_columns (app_row e) "chol" = CNum (nth 4 (fst e) 0%Q) /\
  cell_at record_columns (app_row e) "trestbps" = CNum (nth 3 (fst e) 0%Q).
Proof.
  destruct e as [v p]. simpl. intros Hlen.
  do 13 (destruct v as [|? v]; [discriminate|]). destruct v; [|discriminate].
  repeat split.
Qed.

Lemma zip3_map {A B C D} (f : D -> A) (g : D -> B) (h : D -> C) (l : list D) :
  zip3 (map f l) (map g l) (map h l) = map (fun x => (f x, g x, h x)) l.
Proof. induction l as [|x l IH]; [reflexivity|]. unfold zip3 in *. simpl. rewrite IH. reflexivity. Qed.

Lemma app_store_charts (entries : list (list Q * Z)) :
  Forall (fun e => length (fst e) = 13%nat) entries ->
  visual_analytics (Some (app_store entries)) =
    Some (Charts (map (fun e => (CNum (nth 0 (fst e) 0%Q), CNum (nth 7 (fst e) 0%Q), CNum (Qz (snd e)))) entries)
                 (map (fun e => (CNum (nth 4 (fst e) 0%Q), CNum (nth 3 (fst e) 0%Q), CNum (Qz (snd e)))) entries)
                 (value_counts (map (fun e => CStr (risk_level (snd e))) entries))).
Proof.
  intros Hall. unfold visual_analytics. rewrite (risk_column entries Hall).
  rewrite !column_app_store by reflexivity. rewrite !map_map, !zip3_map.
  do 2 f_equal; apply map_ext_in; intros e He;
    rewrite Forall_forall in Hall; destruct (app_row_cells e (Hall e He)) as (H1 & H2 & H3 & H4 & H5);
    rewrite ?H1, ?H2, ?H3, ?H4, ?H5; reflexivity.
Qed.

Lemma updated_app_store (entries : list (list Q * Z)) (v : list Q) (p : Z) :
  updated_data (Some (app_store entries)) (record_df v p) = app_store (entries ++ [(v, p)]).
Proof.
  unfold updated_data, concat, app_store. cbn [columns rows record_df].
  rewrite str_list_eqb_refl, map_app. reflexivity.
Qed.

(** X7: pressing the button with well-formed inputs, on a records file the
    app wrote (or none), rewrites the file with the new record after the old
    ones, and the charts of the same run already count it: "High" maps to
    the number of label-1 records including the new one, "Low" to the rest,
    each present only when non-zero. *)
Theorem script_run_press_charts (transform : list Q -> list Q) (predict : list Q -> Z)
    (r : raw_input) (s : fs) (v : list Q) (entries : list (list Q * Z)) :
  input_data r = Some v ->
  (records_csv s = None /\ entries = [] \/ records_csv s = Some (app_store entries)) ->
  Forall (fun e => length (fst e) = 13%nat) entries ->
  let all := entries ++ [(v, predict (transform v))] in
  exists o a b rc,
    script_run transform predict true true true r s =
      (Rendered (Some o) (Some (Charts a b rc)), mk_fs true (Some (app_store all))) /\
    count_of rc (CStr "High") = nz (length (filter (fun e => Z.eqb (snd e) 1) all)) /\
    count_of rc (CStr "Low") = nz (length (filter (fun e => negb (Z.eqb (snd e) 1)) all)).
Proof.
  intros Hv Hs Hall all.
  pose proof (input_data_some r v Hv) as (? & ? & ? & ? & _ & _ & _ & _ & Hvv).
  assert (Hall' : Forall (fun e => length (fst e) = 13%nat) all).
  { apply Forall_app. split; [exact Hall|]. constructor; [|constructor]. subst v. reflexivity. }
  assert (Hfile : records_csv (append_csv s (record_df v (predict (transform v)))) =
                  Some (app_store all)).
  { simpl. destruct Hs as [[Hn ->] | Hn]; rewrite Hn; [reflexivity|]. f_equal. apply updated_app_store. }
  unfold script_run. simpl. rewrite Hv. unfold predict_button. rewrite Hv.
  rewrite Hfile, (app_store_charts all Hall').
  do 4 eexists. split.
  - unfold append_csv. f_equal. f_equal. exact Hfile.
  - rewrite !count_of_value_counts. destruct (count_levels all) as [-> ->]. split; reflexivity.
Qed.

Lemma script_run_press_charts_witness :
  exists o a b rc,
    script_run (fun v => v) (fun _ => 1%Z) true true true default_input
      (mk_fs true (Some (app_store [(default_vector, 0%Z)]))) =
      (Rendered (Some o) (Some (Charts a b rc)),
       mk_fs true (Some (app_store [(default_vector, 0%Z); (default_vector, 1%Z)]))) /\
    count_of rc (CStr "High") = Some 1%nat /\ count_of rc (CStr "Low") = Some 1%nat.
Proof.
  exact (script_run_press_charts (fun v => v) (fun _ => 1%Z) default_input
           (mk_fs true (Some (app_store [(default_vector, 0%Z)]))) default_vector
           [(default_vector, 0%Z)] eq_refl (or_intror eq_refl) ltac:(repeat constructor)).
Defined.

(** X9: on a records file the app wrote, the two scatter charts plot one
    point per record, in file order: (age, thalach) and (chol, trestbps),
    each coloured by that record's prediction. *)
Theorem scatter_series_app_store (entries : list (list Q * Z)) :
  Forall (fun e => length (fst e) = 13%nat) entries ->
  exists rc, visual_analytics (Some (app_store entries)) =
    Some (Charts (map (fun e => (CNum (nth 0 (fst e) 0%Q), CNum (nth 7 (fst e) 0%Q), CNum (Qz (snd e)))) entries)
                 (map (fun e => (CNum (nth 4 (fst e) 0%Q), CNum (nth 3 (fst e) 0%Q), CNum (Qz (snd e)))) entries)
                 rc).
Proof. intros Hall. eexists. exact (app_store_charts entries Hall). Qed.

Lemma scatter_series_app_store_witness :
  exists rc, visual_analytics (Some (app_store [(default_vector, 1%Z); (second_vector, 0%Z)])) =
    Some (Charts [(CNum (Qz 45), CNum (Qz 150), CNum (Qz 1)); (CNum (Qz 62), CNum (Qz 160), CNum (Qz 0))]
                 [(CNum (Qz 200), CNum (Qz 120), CNum (Qz 1)); (CNum (Qz 268), CNum (Qz 140), CNum (Qz 0))]
                 rc).
Proof.
  exact (scatter_series_app_store [(default_vector, 1%Z); (second_vector, 0%Z)]
           ltac:(repeat constructor)).
Defined.

(** X10: [pd.concat] as the append uses it keeps every row: the result has
    the rows of the stored table, in place, then those of the new frame; its
    header is the stored one followed by the new frame's columns it lacks;
    and under each column of the result a row holds its own value when the
    column is one of its own, NaN otherwise. *)
Theorem concat_keeps_rows (a b : table) :
  length (rows (concat a b)) = (length (rows a) + length (rows b))%nat /\
  columns (concat a b) = columns a ++ filter (fun c => negb (str_mem c (columns a))) (columns b) /\
  (forall i row, nth_error (rows a) i = Some row ->
     exists row', nth_error (rows (concat a b)) i = Some row' /\
       forall c, str_mem c (columns (concat a b)) = true ->
         cell_at (columns (concat a b)) row' c =
           if str_mem c (columns a) then cell_at (columns a) row c else CNaN) /\
  (forall i row, nth_error (rows b) i = Some row ->
     exists row', nth_error (rows (concat a b)) (length (rows a) + i) = Some row' /\
       forall c, str_mem c (columns (concat a b)) = true ->
         cell_at (columns (concat a b)) row' c =
           if str_mem c (columns b) then cell_at (columns b) row c else CNaN).
Proof.
  destruct (concat_rows a b) as (Hl & Ha & Hb).
  split; [exact Hl|]. split; [apply concat_columns|]. split.
  - intros i row Hi. destruct (Ha i row Hi) as (row' & H1 & H2).
    exists row'. split; [exact H1|]. intros c Hc. rewrite (H2 c Hc). apply cell_at_own.
  - intros i row Hi. destruct (Hb i row Hi) as (row' & H1 & H2).
    exists row'. split; [exact H1|]. intros c Hc. rewrite (H2 c Hc). apply cell_at_own.
Qed.

Lemma total_counts_vc_add x acc : total_counts (vc_add x acc) = S (total_counts acc).
Proof.
  induction acc as [|[y n] acc IH]; simpl; [reflexivity|].
  destruct (cell_eqb x y); simpl; [reflexivity|]. rewrite IH. lia.
Qed.

(** X11: the risk-level counts add up to the number of non-NaN cells of the
    column: every value is counted once, NaN cells are dropped. *)
Theorem value_counts_total (cs : list cell) :
  total_counts (value_counts cs) = non_nan_count cs.
Proof.
  unfold value_counts, non_nan_count.
  assert (H : forall acc, total_counts (fold_left (fun acc c => if is_nan c then acc else vc_add c acc) cs acc)
                          = (total_counts acc + length (filter (fun c => negb (is_nan c)) cs))%nat).
  { induction cs as [|c cs IH]; intros acc; simpl; [lia|].
    rewrite IH. destruct (is_nan c); simpl; [reflexivity|]. rewrite total_counts_vc_add. lia. }
  rewrite H. reflexivity.
Qed.
